(** * sysdb_sudo: the sudo rule cache of SSSD (src/db/sysdb_sudo.c)

    A shallow embedding of the functions of [sysdb_sudo.c] and the
    properties of its time-window check, its search filter builder and its
    cache operations.

    Conventions of the embedding:
    - [errno_t] and [time_t] are [Z]; error codes carry their Linux values;
    - a C out-parameter is an extra argument (the value the caller's
      variable holds before the call) and an extra component of the result
      (the value it holds afterwards);
    - a NULL-terminated [char **] array is a [list string], a pointer that
      may be NULL is an [option];
    - the talloc allocations made by the functions of this file are taken to
      succeed, so their [NULL_CHECK] branches do not appear; functions of
      other files keep the error codes they return;
    - what [sysdb_sudo.c] takes from its headers, from libc and from the rest
      of sysdb is gathered in three interfaces ([SudoHeader], [Libc],
      [Sysdb]); the definitions and theorems are stated over any
      implementation of them. *)

From Stdlib Require Import ZArith List String Ascii Bool Lia DecimalString.
Import ListNotations.
Local Open Scope string_scope.
Local Open Scope Z_scope.

Set Implicit Arguments.

(** ** Error codes and scalar types *)

Definition errno_t := Z.
Definition time_t := Z.
Definition uid_t := Z.

Definition EOK : errno_t := 0.
Definition ENOENT : errno_t := 2.
Definition EIO : errno_t := 5.
Definition ENOMEM : errno_t := 12.
Definition EINVAL : errno_t := 22.

(** ** Attribute bags

    [struct sysdb_attrs] and [struct ldb_message] both carry an array of
    [struct ldb_message_element]: an attribute name and its values, in
    order. *)

Record ldb_message_element := mk_element {
  el_name : string;
  el_values : list string
}.

Definition sysdb_attrs := list ldb_message_element.
Definition ldb_message := list ldb_message_element.

(** libldb's [ldb_msg_find_element]: the first element with the given
    name, NULL when there is none. *)
Fixpoint ldb_msg_find_element (msg : ldb_message) (name : string)
  : option ldb_message_element :=
  match msg with
  | [] => None
  | el :: rest =>
      if String.eqb (el_name el) name then Some el
      else ldb_msg_find_element rest name
  end.

(** libldb's [ldb_msg_find_attr_as_string]: the first value of the
    attribute, the default (here always NULL) when the attribute is missing
    or has no value. *)
Definition ldb_msg_find_attr_as_string (msg : ldb_message) (name : string)
  : option string :=
  match ldb_msg_find_element msg name with
  | Some el => hd_error (el_values el)
  | None => None
  end.

(** Decimal numerals, for [ldb_msg_find_attr_as_uint64] and ["%llu"]. *)
Definition digit_of_ascii (c : ascii) : option Z :=
  let n := Z.of_nat (nat_of_ascii c) in
  if (48 <=? n) && (n <=? 57) then Some (n - 48) else None.

Fixpoint parse_digits (acc : Z) (s : string) : option Z :=
  match s with
  | EmptyString => Some acc
  | String c rest =>
      match digit_of_ascii c with
      | Some d => parse_digits (10 * acc + d) rest
      | None => None
      end
  end.

(** libldb's [ldb_msg_find_attr_as_uint64]: the first value read as a
    decimal number; the default when the attribute is missing, has no
    value, is not a numeral or does not fit 64 bits. *)
Definition ldb_msg_find_attr_as_uint64 (msg : ldb_message) (name : string)
  (default : Z) : Z :=
  match ldb_msg_find_attr_as_string msg name with
  | Some (String c rest as v) =>
      match parse_digits 0 v with
      | Some n => if n <? 2 ^ 64 then n else default
      | None => default
      end
  | _ => default
  end.

(** Modelled from the spec: [sysdb_attrs_get_string_array] is defined in
    db/sysdb.c, which is not part of the sources at hand.  The rule record
    is an ordered mapping from attribute name to its values; reading an
    attribute gives its values in attribute order, and a missing attribute
    is reported as [ENOENT] (the code the [done] label of
    [sysdb_sudo_check_time] tests for).  An attribute that is present with
    no value gives [EOK] and an array holding only the terminating NULL. *)
Definition sysdb_attrs_get_string_array (attrs : sysdb_attrs) (name : string)
  : errno_t * list string :=
  match ldb_msg_find_element attrs name with
  | Some el => (EOK, el_values el)
  | None => (ENOENT, [])
  end.

(** ** What sysdb_sudo.c takes from its surroundings *)

(** The macros of db/sysdb.h and db/sysdb_sudo.h that the file uses. *)
Class SudoHeader := {
  SYSDB_OBJECTCLASS : string;
  SYSDB_NAME : string;
  SYSDB_MEMBEROF : string;
  SYSDB_UIDNUM : string;
  SUDORULE_SUBDIR : string;
  SYSDB_SUDO_CACHE_AT_OC : string;
  SYSDB_SUDO_CACHE_AT_CN : string;
  SYSDB_SUDO_CACHE_AT_USER : string;
  SYSDB_SUDO_CACHE_AT_NOTBEFORE : string;
  SYSDB_SUDO_CACHE_AT_NOTAFTER : string;
  SYSDB_SUDO_TIME_FORMAT : string;
  SYSDB_SUDO_FILTER_USERNAME : Z;
  SYSDB_SUDO_FILTER_UID : Z;
  SYSDB_SUDO_FILTER_GROUPS : Z;
  SYSDB_SUDO_FILTER_NGRS : Z;
  SYSDB_SUDO_FILTER_INCLUDE_ALL : Z;
  SYSDB_SUDO_FILTER_INCLUDE_DFL : Z
}.

(** The libc time functions.  [strptime s fmt] is [None] when the C
    function returns NULL, and otherwise the unparsed rest of [s] (what the
    returned pointer points at) with the broken-down time; [mktime] depends
    on the time zone of the process; [time] is the wall clock. *)
Class Libc := {
  tm : Type;
  strptime : string -> string -> option (string * tm);
  mktime : tm -> time_t;
  time : time_t
}.

(** The functions of the rest of sysdb (db/sysdb.c, db/sysdb_ops.c) that
    the file calls.  A function that changes the cache returns the cache
    after the call next to its error code; [sysdb_custom_subtree_dn] is
    [None] when the C function returns NULL; the message, the name or the
    messages a function hands back on failure are not looked at by its
    callers here. *)
Class Sysdb := {
  sysdb_ctx : Type;
  ldb_dn : Type;
  sysdb_attrs_add_string :
    sysdb_attrs -> string -> string -> errno_t * sysdb_attrs;
  sysdb_search_user_by_name :
    sysdb_ctx -> string -> list string -> errno_t * ldb_message;
  sysdb_group_dn_name : sysdb_ctx -> string -> errno_t * string;
  sysdb_custom_subtree_dn : sysdb_ctx -> string -> string -> option ldb_dn;
  sysdb_delete_recursive : sysdb_ctx -> ldb_dn -> bool -> errno_t * sysdb_ctx;
  sysdb_store_custom :
    sysdb_ctx -> string -> string -> sysdb_attrs -> errno_t * sysdb_ctx;
  sysdb_search_custom :
    sysdb_ctx -> string -> string -> list string ->
    errno_t * list ldb_message;
  sysdb_delete_custom : sysdb_ctx -> string -> string -> errno_t * sysdb_ctx
}.

(** ** The time window of a rule *)

Section TimeWindow.
Context {hdr : SudoHeader} {libc : Libc}.

(** The [done] label of [sysdb_sudo_check_time]. *)
Definition check_time_done (ret : errno_t) (result : bool)
  : errno_t * bool :=
  if ret =? ENOENT then (EOK, true) else (ret, result).

(** The second half of [sysdb_sudo_check_time], from the comment
    "check for sudoNotAfter" on. *)
Definition check_time_notafter (rule : sysdb_attrs) (now : time_t)
  (result : bool) : errno_t * bool :=
  let (ret, values) :=
    sysdb_attrs_get_string_array rule SYSDB_SUDO_CACHE_AT_NOTAFTER in
  if negb (ret =? EOK) then check_time_done ret result
  else
    match values with
    | v0 :: _ =>
        (* find last value *)
        match strptime (last values v0) SYSDB_SUDO_TIME_FORMAT with
        | Some (EmptyString, t) =>
            let converted := mktime t in
            if now >? converted then check_time_done ret false
            else check_time_done EOK true
        | _ => check_time_done EINVAL result
        end
    | [] => check_time_done EOK true
    end.

Definition sysdb_sudo_check_time (rule : sysdb_attrs) (now : time_t)
  (result : bool) : errno_t * bool :=
  let (ret, values) :=
    sysdb_attrs_get_string_array rule SYSDB_SUDO_CACHE_AT_NOTBEFORE in
  if negb (ret =? EOK) then check_time_done ret result
  else
    match values with
    | v0 :: _ =>
        match strptime v0 SYSDB_SUDO_TIME_FORMAT with
        | Some (EmptyString, t) =>
            let converted := mktime t in
            if now <? converted then check_time_done ret false
            else check_time_notafter rule now result
        | _ => check_time_done EINVAL result
        end
    | [] => check_time_notafter rule now result
    end.

(** The loop of [sysdb_sudo_filter_rules_by_time]: [allowed] and [rules]
    are the local variables of the function, carried from one iteration
    to the next. *)
Fixpoint filter_rules_loop (in_rules : list sysdb_attrs) (now : time_t)
  (allowed : bool) (rules : list sysdb_attrs) : list sysdb_attrs :=
  match in_rules with
  | [] => rules
  | rule :: rest =>
      let (ret, allowed') := sysdb_sudo_check_time rule now allowed in
      if (ret =? EOK) && allowed'
      then filter_rules_loop rest now allowed' (rules ++ [rule])
      else filter_rules_loop rest now allowed' rules
  end.

Definition sysdb_sudo_filter_rules_by_time (in_rules : list sysdb_attrs)
  (now : time_t) : errno_t * list sysdb_attrs :=
  let now := if now =? 0 then time else now in
  (EOK, filter_rules_loop in_rules now false []).

End TimeWindow.

(** ** The search filter of a user *)

Section Filter.
Context {hdr : SudoHeader}.

(** [flags & FLAG] used as a condition. *)
Definition flag_set (flags flag : Z) : bool :=
  negb (Z.land flags flag =? 0).

(** ["%llu"] of an unsigned number. *)
Definition print_llu (n : Z) : string :=
  NilZero.string_of_uint (N.to_uint (Z.to_N n)).

(** The six [if] statements that build [specific_filter], one function
    each: the string before the statement to the string after it. *)
Definition filter_include_all (flags : Z) (specific_filter : string)
  : string :=
  if flag_set flags SYSDB_SUDO_FILTER_INCLUDE_ALL
  then specific_filter ++ "(" ++ SYSDB_SUDO_CACHE_AT_USER ++ "=ALL)"
  else specific_filter.

Definition filter_include_dfl (flags : Z) (specific_filter : string)
  : string :=
  if flag_set flags SYSDB_SUDO_FILTER_INCLUDE_DFL
  then specific_filter ++ "(" ++ SYSDB_NAME ++ "=defaults)"
  else specific_filter.

Definition filter_username (flags : Z) (username : option string)
  (specific_filter : string) : string :=
  match flag_set flags SYSDB_SUDO_FILTER_USERNAME, username with
  | true, Some name =>
      specific_filter
        ++ "(" ++ SYSDB_SUDO_CACHE_AT_USER ++ "=" ++ name ++ ")"
  | _, _ => specific_filter
  end.

Definition filter_uid (flags : Z) (uid : uid_t) (specific_filter : string)
  : string :=
  if flag_set flags SYSDB_SUDO_FILTER_UID && negb (uid =? 0)
  then specific_filter
         ++ "(" ++ SYSDB_SUDO_CACHE_AT_USER ++ "=#" ++ print_llu uid ++ ")"
  else specific_filter.

Fixpoint filter_groups_loop (groupnames : list string)
  (specific_filter : string) : string :=
  match groupnames with
  | [] => specific_filter
  | g :: rest =>
      filter_groups_loop rest
        (specific_filter
           ++ "(" ++ SYSDB_SUDO_CACHE_AT_USER ++ "=%" ++ g ++ ")")
  end.

Definition filter_groups (flags : Z) (groupnames : option (list string))
  (specific_filter : string) : string :=
  match flag_set flags SYSDB_SUDO_FILTER_GROUPS, groupnames with
  | true, Some names => filter_groups_loop names specific_filter
  | _, _ => specific_filter
  end.

Definition filter_ngrs (flags : Z) (specific_filter : string) : string :=
  if flag_set flags SYSDB_SUDO_FILTER_NGRS
  then specific_filter ++ "(" ++ SYSDB_SUDO_CACHE_AT_USER ++ "=+*)"
  else specific_filter.

(** [specific_filter] when the global filter is built. *)
Definition sudo_specific_filter (username : option string) (uid : uid_t)
  (groupnames : option (list string)) (flags : Z) : string :=
  filter_ngrs flags
    (filter_groups flags groupnames
       (filter_uid flags uid
          (filter_username flags username
             (filter_include_dfl flags
                (filter_include_all flags EmptyString))))).

Definition sysdb_get_sudo_filter (username : option string) (uid : uid_t)
  (groupnames : option (list string)) (flags : Z) : errno_t * string :=
  let specific_filter := sudo_specific_filter username uid groupnames flags in
  let filter :=
    "(&(" ++ SYSDB_OBJECTCLASS ++ "=" ++ SYSDB_SUDO_CACHE_AT_OC ++ ")" in
  let filter :=
    match specific_filter with
    | EmptyString => filter
    | String _ _ => filter ++ "(|" ++ specific_filter ++ ")"
    end in
  let filter := filter ++ ")" in
  (EOK, filter).

End Filter.

(** ** The cache operations *)

Section Cache.
Context {hdr : SudoHeader} {db : Sysdb}.

(** The loop of [sysdb_get_sudo_user_info] over the values of memberOf:
    [names] holds [sysdb_groupnames[0..i-1]]. *)
Fixpoint user_info_groups_loop (sysdb : sysdb_ctx) (values : list string)
  (names : list string) : errno_t * list string :=
  match values with
  | [] => (EOK, names)
  | v :: rest =>
      let (ret, name) := sysdb_group_dn_name sysdb v in
      if negb (ret =? EOK) then (ENOMEM, names)
      else user_info_groups_loop sysdb rest (names ++ [name])
  end.

(** The body of [sysdb_get_sudo_user_info] up to the [done] label: the
    value of [ret] there, and the out-parameters. *)
Definition user_info_body (sysdb : sysdb_ctx) (username : string)
  (_uid : uid_t) (groupnames : option (list string))
  : errno_t * uid_t * option (list string) :=
  let attrs := [SYSDB_MEMBEROF; SYSDB_UIDNUM] in
  let (ret, msg) := sysdb_search_user_by_name sysdb username attrs in
  if negb (ret =? EOK) then (ret, _uid, groupnames)
  else
    let uid := ldb_msg_find_attr_as_uint64 msg SYSDB_UIDNUM 0 mod 2 ^ 32 in
    if uid =? 0 then (EIO, _uid, groupnames)
    else
      match ldb_msg_find_element msg SYSDB_MEMBEROF with
      | Some (mk_element _ (v :: vs)) =>
          let (ret, names) := user_info_groups_loop sysdb (v :: vs) [] in
          if negb (ret =? EOK) then (ret, _uid, groupnames)
          else (EOK, uid, Some names)
      | _ =>
          (* No groups for this user in sysdb currently *)
          (EOK, uid, None)
      end.

Definition sysdb_get_sudo_user_info (sysdb : sysdb_ctx) (username : string)
  (_uid : uid_t) (groupnames : option (list string))
  : errno_t * uid_t * option (list string) :=
  let '(ret, _uid', groupnames') :=
    user_info_body sysdb username _uid groupnames in
  (EOK, _uid', groupnames').

Definition sysdb_sudo_purge_subdir (sysdb : sysdb_ctx)
  (domain_name subdir : string) : errno_t * sysdb_ctx :=
  match sysdb_custom_subtree_dn sysdb domain_name subdir with
  | None => (EOK, sysdb)
  | Some base_dn =>
      let (ret, sysdb') := sysdb_delete_recursive sysdb base_dn true in
      (EOK, sysdb')
  end.

Definition sysdb_save_sudorule (sysdb : sysdb_ctx) (rule_name : string)
  (attrs : sysdb_attrs) : errno_t * sysdb_attrs * sysdb_ctx :=
  let (ret, attrs) :=
    sysdb_attrs_add_string attrs SYSDB_OBJECTCLASS SYSDB_SUDO_CACHE_AT_OC in
  if negb (ret =? EOK) then (ret, attrs, sysdb)
  else
    let (ret, attrs) := sysdb_attrs_add_string attrs SYSDB_NAME rule_name in
    if negb (ret =? EOK) then (ret, attrs, sysdb)
    else
      let (ret, sysdb) :=
        sysdb_store_custom sysdb rule_name SUDORULE_SUBDIR attrs in
      if negb (ret =? EOK) then (ret, attrs, sysdb)
      else (EOK, attrs, sysdb).

(** The loop of [sysdb_purge_sudorule_subtree] over the matched
    messages. *)
Fixpoint purge_loop (sysdb : sysdb_ctx) (msgs : list ldb_message)
  : errno_t * sysdb_ctx :=
  match msgs with
  | [] => (EOK, sysdb)
  | msg :: rest =>
      match ldb_msg_find_attr_as_string msg SYSDB_NAME with
      | None =>
          (* skip this one but still delete other entries *)
          purge_loop sysdb rest
      | Some name =>
          let (ret, sysdb') :=
            sysdb_delete_custom sysdb name SUDORULE_SUBDIR in
          if negb (ret =? EOK) then (ret, sysdb')
          else purge_loop sysdb' rest
      end
  end.

Definition sysdb_purge_sudorule_subtree (sysdb : sysdb_ctx)
  (domain_name : string) (filter : option string) : errno_t * sysdb_ctx :=
  let attrs := [SYSDB_OBJECTCLASS; SYSDB_NAME;
                SYSDB_SUDO_CACHE_AT_OC; SYSDB_SUDO_CACHE_AT_CN] in
  match filter with
  | None =>
      (* just purge all if there's no filter *)
      sysdb_sudo_purge_subdir sysdb domain_name SUDORULE_SUBDIR
  | Some filter =>
      let (ret, msgs) :=
        sysdb_search_custom sysdb filter SUDORULE_SUBDIR attrs in
      if negb (ret =? EOK) && negb (ret =? ENOENT) then (ret, sysdb)
      else if ret =? ENOENT then (EOK, sysdb)
      else purge_loop sysdb msgs
  end.

End Cache.

(** ** Implementations of the interfaces, for running the functions *)

(** Modelled from the spec: db/sysdb.h and db/sysdb_sudo.h are not among
    the sources.  The attribute names are those of the sudoers LDAP schema
    and of the sysdb cache, the time format is the one the spec gives
    (yyyymmddHHMMSS and a literal Z), and every flag is a bit of its own.
    The statements that quantify over [SudoHeader] do not depend on these
    values. *)
Definition sssd_header : SudoHeader := {|
  SYSDB_OBJECTCLASS := "objectClass";
  SYSDB_NAME := "name";
  SYSDB_MEMBEROF := "memberOf";
  SYSDB_UIDNUM := "uidNumber";
  SUDORULE_SUBDIR := "sudorules";
  SYSDB_SUDO_CACHE_AT_OC := "sudoRule";
  SYSDB_SUDO_CACHE_AT_CN := "cn";
  SYSDB_SUDO_CACHE_AT_USER := "sudoUser";
  SYSDB_SUDO_CACHE_AT_NOTBEFORE := "sudoNotBefore";
  SYSDB_SUDO_CACHE_AT_NOTAFTER := "sudoNotAfter";
  SYSDB_SUDO_TIME_FORMAT := "%Y%m%d%H%M%SZ";
  SYSDB_SUDO_FILTER_USERNAME := 1;
  SYSDB_SUDO_FILTER_UID := 2;
  SYSDB_SUDO_FILTER_GROUPS := 4;
  SYSDB_SUDO_FILTER_NGRS := 8;
  SYSDB_SUDO_FILTER_INCLUDE_ALL := 16;
  SYSDB_SUDO_FILTER_INCLUDE_DFL := 32
|}.

(** A libc whose time zone is UTC, whose [strptime] knows the one format
    of the file and reads its fields at full width, and whose clock shows
    [clock]. *)
Module UtcLibc.

Record tm := mk_tm {
  tm_year : Z; tm_mon : Z; tm_mday : Z;
  tm_hour : Z; tm_min : Z; tm_sec : Z
}.

Fixpoint take_number (width : nat) (acc : Z) (s : string)
  : option (Z * string) :=
  match width with
  | O => Some (acc, s)
  | S width' =>
      match s with
      | String c rest =>
          match digit_of_ascii c with
          | Some d => take_number width' (10 * acc + d) rest
          | None => None
          end
      | EmptyString => None
      end
  end.

Definition in_range (lo hi n : Z) : bool := (lo <=? n) && (n <=? hi).

Definition strptime (s fmt : string) : option (string * tm) :=
  if negb (String.eqb fmt "%Y%m%d%H%M%SZ") then None
  else
    match take_number 4 0 s with
    | None => None
    | Some (year, s) =>
    match take_number 2 0 s with
    | None => None
    | Some (mon, s) =>
    match take_number 2 0 s with
    | None => None
    | Some (mday, s) =>
    match take_number 2 0 s with
    | None => None
    | Some (hour, s) =>
    match take_number 2 0 s with
    | None => None
    | Some (min, s) =>
    match take_number 2 0 s with
    | None => None
    | Some (sec, s) =>
        match s with
        | String "Z"%char rest =>
            if in_range 1 12 mon && in_range 1 31 mday
               && in_range 0 23 hour && in_range 0 59 min
               && in_range 0 61 sec
            then Some (rest, mk_tm year mon mday hour min sec)
            else None
        | _ => None
        end
    end end end end end end.

(** Days from 1970-01-01 to the given day of the Gregorian calendar. *)
Definition days_from_civil (y m d : Z) : Z :=
  let y := if m <=? 2 then y - 1 else y in
  let era := y / 400 in
  let yoe := y - era * 400 in
  let mp := (m + 9) mod 12 in
  let doy := (153 * mp + 2) / 5 + d - 1 in
  let doe := yoe * 365 + yoe / 4 - yoe / 100 + doy in
  era * 146097 + doe - 719468.

Definition mktime (t : tm) : time_t :=
  days_from_civil (tm_year t) (tm_mon t) (tm_mday t) * 86400
  + tm_hour t * 3600 + tm_min t * 60 + tm_sec t.

Definition libc (clock : time_t) : Libc :=
  Build_Libc strptime mktime clock.

End UtcLibc.

(** Modelled from the spec: the record store behind sysdb (db/sysdb.c and
    db/sysdb_ops.c are not among the sources) is a keyed record store with
    put by key, delete by key, search by predicate and delete of the
    subtree, next to an identity store.  Here it is a cache held in
    memory.  Its entries are stored under their rule name;
    a name listed in [mem_readonly] can be neither written nor deleted
    (the operation fails with [EIO]), and the subtree as a whole cannot be
    deleted when [mem_locked] is set.  A search filter is a single
    [(attribute=value)] test.  A group DN has the form [name=GROUP,...].
    An attribute bag has room for [arena] values. *)
Module MemSysdb.

Record ctx := mk_ctx {
  mem_users : list (string * ldb_message);
  mem_rules : list (string * sysdb_attrs);
  mem_readonly : list string;
  mem_locked : bool
}.

Definition mem (x : string) (l : list string) : bool :=
  existsb (String.eqb x) l.

Definition count_values (attrs : sysdb_attrs) : nat :=
  fold_right (fun el n => (List.length (el_values el) + n)%nat) O attrs.

Fixpoint append_value (attrs : sysdb_attrs) (name val : string)
  : sysdb_attrs :=
  match attrs with
  | [] => [mk_element name [val]]
  | el :: rest =>
      if String.eqb (el_name el) name
      then mk_element name (el_values el ++ [val]) :: rest
      else el :: append_value rest name val
  end.

Definition attrs_add_string (arena : nat) (attrs : sysdb_attrs)
  (name val : string) : errno_t * sysdb_attrs :=
  if (count_values attrs <? arena)%nat
  then (EOK, append_value attrs name val)
  else (ENOMEM, attrs).

Fixpoint assoc {A : Type} (key : string) (l : list (string * A))
  : option A :=
  match l with
  | [] => None
  | (k, v) :: rest => if String.eqb k key then Some v else assoc key rest
  end.

Definition remove_key {A : Type} (key : string) (l : list (string * A))
  : list (string * A) :=
  List.filter (fun kv => negb (String.eqb (fst kv) key)) l.

Definition search_user_by_name (c : ctx) (username : string)
  (attrs : list string) : errno_t * ldb_message :=
  match assoc username (mem_users c) with
  | Some msg => (EOK, msg)
  | None => (ENOENT, [])
  end.

(** [split_at c s]: [s] up to the first [c], and what follows it. *)
Fixpoint split_at (c : ascii) (s : string) : option (string * string) :=
  match s with
  | EmptyString => None
  | String a rest =>
      if Ascii.eqb a c then Some (EmptyString, rest)
      else
        match split_at c rest with
        | Some (l, r) => Some (String a l, r)
        | None => None
        end
  end.

Definition group_dn_name (c : ctx) (dn : string) : errno_t * string :=
  match split_at "="%char dn with
  | Some (attr, rest) =>
      if String.eqb attr "name" then
        match split_at ","%char rest with
        | Some (name, _) => (EOK, name)
        | None => (EOK, rest)
        end
      else (EINVAL, EmptyString)
  | None => (EINVAL, EmptyString)
  end.

Definition custom_subtree_dn (c : ctx) (domain_name subdir : string)
  : option string :=
  Some ("cn=" ++ subdir ++ ",cn=custom,cn=" ++ domain_name
          ++ ",cn=sysdb")%string.

Definition delete_recursive (c : ctx) (dn : string) (ignore : bool)
  : errno_t * ctx :=
  if mem_locked c then (EIO, c)
  else (EOK, mk_ctx (mem_users c) [] (mem_readonly c) (mem_locked c)).

Definition store_custom (c : ctx) (name subdir : string)
  (attrs : sysdb_attrs) : errno_t * ctx :=
  if mem name (mem_readonly c) then (EIO, c)
  else (EOK, mk_ctx (mem_users c)
               (remove_key name (mem_rules c) ++ [(name, attrs)])
               (mem_readonly c) (mem_locked c)).

Definition delete_custom (c : ctx) (name subdir : string)
  : errno_t * ctx :=
  if mem name (mem_readonly c) then (EIO, c)
  else (EOK, mk_ctx (mem_users c) (remove_key name (mem_rules c))
               (mem_readonly c) (mem_locked c)).

(** The filter [(attribute=value)] as the pair of its two sides. *)
Definition parse_filter (filter : string) : option (string * string) :=
  match filter with
  | String "("%char body =>
      match split_at "="%char body with
      | Some (attr, rest) =>
          match split_at ")"%char rest with
          | Some (val, EmptyString) => Some (attr, val)
          | _ => None
          end
      | None => None
      end
  | _ => None
  end.

Definition matches (attr val : string) (msg : ldb_message) : bool :=
  match ldb_msg_find_element msg attr with
  | Some el => mem val (el_values el)
  | None => false
  end.

Definition search_custom (c : ctx) (flt subdir : string)
  (attrs : list string) : errno_t * list ldb_message :=
  match parse_filter flt with
  | None => (EINVAL, [])
  | Some (attr, val) =>
      match List.filter (matches attr val) (map snd (mem_rules c)) with
      | [] => (ENOENT, [])
      | msgs => (EOK, msgs)
      end
  end.

Definition sysdb (arena : nat) : Sysdb :=
  Build_Sysdb (attrs_add_string arena) search_user_by_name group_dn_name
    custom_subtree_dn delete_recursive store_custom search_custom
    delete_custom.

End MemSysdb.

(** ** Notions used by the statements *)

Section Notions.
Context {hdr : SudoHeader} {libc : Libc} {db : Sysdb}.

(** A rule passes the filter at [now] when the check succeeds and allows
    it. *)
Definition rule_active (now : time_t) (rule : sysdb_attrs) : bool :=
  let (ret, allowed) := sysdb_sudo_check_time rule now false in
  (ret =? EOK) && allowed.

(** The reference time the filter uses. *)
Definition effective_now (now : time_t) : time_t :=
  if now =? 0 then time else now.

(** The names of the messages that have one, in order. *)
Fixpoint rule_names (msgs : list ldb_message) : list string :=
  match msgs with
  | [] => []
  | msg :: rest =>
      match ldb_msg_find_attr_as_string msg SYSDB_NAME with
      | Some name => name :: rule_names rest
      | None => rule_names rest
      end
  end.

(** The cache after deleting the named rules one after the other. *)
Fixpoint delete_all (sysdb : sysdb_ctx) (names : list string) : sysdb_ctx :=
  match names with
  | [] => sysdb
  | name :: rest =>
      delete_all (snd (sysdb_delete_custom sysdb name SUDORULE_SUBDIR)) rest
  end.

(** Every one of these deletions succeeds. *)
Fixpoint deletes_succeed (sysdb : sysdb_ctx) (names : list string) : Prop :=
  match names with
  | [] => True
  | name :: rest =>
      fst (sysdb_delete_custom sysdb name SUDORULE_SUBDIR) = EOK
      /\ deletes_succeed
           (snd (sysdb_delete_custom sysdb name SUDORULE_SUBDIR)) rest
  end.

(** The messages a search matched: none when it reports [ENOENT]. *)
Definition matched (ret : errno_t) (msgs : list ldb_message)
  : list ldb_message :=
  if ret =? ENOENT then [] else msgs.

End Notions.

(** ** Sample data *)

Module Sample.

Definition t2019 := "20190101000000Z".
Definition t2020 := "20200101000000Z".
Definition t2021 := "20210101000000Z".

(** 2020-01-01, 2020-06-01 and 2021-01-01, 00:00:00 UTC. *)
Definition jan2020 : time_t := 1577836800.
Definition jun2020 : time_t := 1590969600.

Definition libc : Libc := UtcLibc.libc jun2020.

Definition rule (name : string) (notbefore notafter : option (list string))
  : sysdb_attrs :=
  ([mk_element "cn" [name]]
     ++ match notbefore with
        | Some vs => [mk_element "sudoNotBefore" vs]
        | None => []
        end
     ++ match notafter with
        | Some vs => [mk_element "sudoNotAfter" vs]
        | None => []
        end)%list.

(** An identity store with a regular user and an entry without a uid,
    and a rule cache in which [r2] has lost its name attribute. *)
Definition users : list (string * ldb_message) :=
  [("alice",
    [mk_element "uidNumber" ["1000"];
     mk_element "memberOf"
       ["name=wheel,cn=groups,cn=example,cn=sysdb";
        "name=adm,cn=groups,cn=example,cn=sysdb"]]);
   ("ghost", [mk_element "memberOf" []])].

Definition stored (name : string) (named : bool) (user : string)
  : string * sysdb_attrs :=
  (name,
   ([mk_element "cn" [name]]
      ++ (if named then [mk_element "name" [name]] else [])
      ++ [mk_element "sudoUser" [user]])%list).

Definition rules : list (string * sysdb_attrs) :=
  [stored "r1" true "ALL"; stored "r2" false "ALL";
   stored "r3" true "ALL"; stored "r4" true "bob";
   stored "r5" true "ALL"].

Definition cache : MemSysdb.ctx := MemSysdb.mk_ctx users rules [] false.

(** The same cache when [r3] cannot be written or deleted, and when the
    subtree cannot be deleted. *)
Definition cache_r3_readonly : MemSysdb.ctx :=
  MemSysdb.mk_ctx users rules ["r3"] false.

Definition cache_locked : MemSysdb.ctx :=
  MemSysdb.mk_ctx users rules [] true.

Definition sysdb : Sysdb := MemSysdb.sysdb 8.

End Sample.

(** ** The refreshed flag *)

(** The macros of db/sysdb.h and db/sysdb_sudo.h that the two functions
    on the refreshed flag use. *)
Class RefreshedHeader := {
  SYSDB_SUDO_AT_REFRESHED : string;
  SYSDB_TMPL_CUSTOM_SUBTREE : string
}.

(** What the two functions take from sysdb and libldb, over a cache of
    type [ctx] and DNs of type [dn]: the name of the domain of the cache
    ([sysdb->domain->name]); [ldb_dn_new_fmt] with its format and the
    arguments of the format, [None] when the C function returns NULL;
    [sysdb_set_bool], which returns the cache after the call; and
    [sysdb_get_bool], whose last argument is what the caller's variable
    holds before the call. *)
Class SysdbBool (ctx dn : Type) := {
  sysdb_domain_name : ctx -> string;
  ldb_dn_new_fmt : ctx -> string -> list string -> option dn;
  sysdb_set_bool : ctx -> dn -> string -> string -> bool -> errno_t * ctx;
  sysdb_get_bool : ctx -> dn -> string -> bool -> errno_t * bool
}.

Section Refreshed.
Context {hdr : SudoHeader} {rhdr : RefreshedHeader}.
Context {ctx dn : Type} {sb : SysdbBool ctx dn}.

Definition sysdb_sudo_set_refreshed (sysdb : ctx) (refreshed : bool)
  : errno_t * ctx :=
  match ldb_dn_new_fmt sysdb SYSDB_TMPL_CUSTOM_SUBTREE
          [SUDORULE_SUBDIR; sysdb_domain_name sysdb] with
  | None => (ENOMEM, sysdb)
  | Some d =>
      sysdb_set_bool sysdb d SUDORULE_SUBDIR SYSDB_SUDO_AT_REFRESHED refreshed
  end.

Definition sysdb_sudo_get_refreshed (sysdb : ctx) (refreshed : bool)
  : errno_t * bool :=
  match ldb_dn_new_fmt sysdb SYSDB_TMPL_CUSTOM_SUBTREE
          [SUDORULE_SUBDIR; sysdb_domain_name sysdb] with
  | None => (ENOMEM, refreshed)
  | Some d => sysdb_get_bool sysdb d SYSDB_SUDO_AT_REFRESHED refreshed
  end.

End Refreshed.

(** Modelled from the spec: one boolean flag per cache subdirectory, set
    and read through the record store, which is not among the sources.
    The flags are kept in a list under the DN and the attribute name; a
    flag that was never set cannot be read ([ENOENT]); a DN is the format
    with each [%s] replaced by the next argument. *)
Module MemFlags.

Record ctx := mk_ctx {
  domain : string;
  flags : list (string * string * bool)
}.

Fixpoint format (fmt : string) (args : list string) : string :=
  match fmt with
  | String "%"%char (String "s"%char rest) =>
      match args with
      | a :: args' => (a ++ format rest args')%string
      | [] => format rest []
      end
  | String c rest => String c (format rest args)
  | EmptyString => EmptyString
  end.

Definition dn_new_fmt (c : ctx) (fmt : string) (args : list string)
  : option string :=
  Some (format fmt args).

Fixpoint lookup (d attr : string) (l : list (string * string * bool))
  : option bool :=
  match l with
  | [] => None
  | (d', attr', b) :: rest =>
      if String.eqb d' d && String.eqb attr' attr then Some b
      else lookup d attr rest
  end.

Definition set_bool (c : ctx) (d cn attr : string) (value : bool)
  : errno_t * ctx :=
  (EOK, mk_ctx (domain c) ((d, attr, value) :: flags c)).

Definition get_bool (c : ctx) (d attr : string) (value : bool)
  : errno_t * bool :=
  match lookup d attr (flags c) with
  | Some b => (EOK, b)
  | None => (ENOENT, value)
  end.

Definition sysdb_bool : SysdbBool ctx string :=
  Build_SysdbBool domain dn_new_fmt set_bool get_bool.

Definition header : RefreshedHeader :=
  Build_RefreshedHeader "sudoRefreshed" "cn=%s,cn=custom,cn=%s,cn=sysdb".

End MemFlags.

(** ** Further notions used by the statements *)

Section MoreNotions.
Context {hdr : SudoHeader} {libc : Libc} {db : Sysdb}.



(** The clause of one group. *)
Definition group_clause (g : string) : string :=
  ("(" ++ SYSDB_SUDO_CACHE_AT_USER ++ "=%" ++ g ++ ")")%string.

(** The strings of a list, one after the other. *)
Definition concat_strings (l : list string) : string :=
  fold_right String.append EmptyString l.

(** The names [sysdb_group_dn_name] gives for the DNs, in order. *)
Definition group_names (sysdb : sysdb_ctx) (dns : list string)
  : list string :=
  map (fun d => snd (sysdb_group_dn_name sysdb d)) dns.

(** Every one of the DNs is resolved. *)
Definition groups_resolve (sysdb : sysdb_ctx) (dns : list string) : Prop :=
  Forall (fun d => fst (sysdb_group_dn_name sysdb d) = EOK) dns.

End MoreNotions.

(** ** More sample data *)

Module MoreSample.

(** An identity store with a user without groups and a user one of whose
    group DNs cannot be resolved. *)
Definition users : list (string * ldb_message) :=
  [("bob", [mk_element "uidNumber" ["1001"]]);
   ("carol",
    [mk_element "uidNumber" ["1002"];
     mk_element "memberOf"
       ["name=staff,cn=groups,cn=example,cn=sysdb";
        "cn=broken";
        "name=adm,cn=groups,cn=example,cn=sysdb"]])].

Definition cache : MemSysdb.ctx :=
  MemSysdb.mk_ctx (Sample.users ++ users) Sample.rules [] false.

(** A cache of the domain example in which no flag has been set. *)
Definition flags : MemFlags.ctx := MemFlags.mk_ctx "example" [].

End MoreSample.

(** ** Properties of the time window *)

Section TimeWindowFacts.
Context {hdr : SudoHeader} {libc : Libc}.

Lemma get_string_array_absent (attrs : sysdb_attrs) (name : string) :
  ldb_msg_find_element attrs name = None ->
  sysdb_attrs_get_string_array attrs name = (ENOENT, []).
Proof.
  unfold sysdb_attrs_get_string_array. intros ->. reflexivity.
Qed.

Lemma get_string_array_codes (attrs : sysdb_attrs) (name : string) :
  fst (sysdb_attrs_get_string_array attrs name) = EOK
  \/ fst (sysdb_attrs_get_string_array attrs name) = ENOENT.
Proof.
  unfold sysdb_attrs_get_string_array.
  destruct (ldb_msg_find_element attrs name); [left | right]; reflexivity.
Qed.

(** A rule without the notBefore attribute is allowed whatever its
    notAfter attribute says: the first [ENOENT] already leaves through
    the [done] label. *)
Lemma check_time_notbefore_absent (rule : sysdb_attrs) (now : time_t)
  (result : bool) :
  ldb_msg_find_element rule SYSDB_SUDO_CACHE_AT_NOTBEFORE = None ->
  sysdb_sudo_check_time rule now result = (EOK, true).
Proof.
  intros H. unfold sysdb_sudo_check_time.
  rewrite (get_string_array_absent _ _ H). reflexivity.
Qed.

(** Only the first notBefore value is looked at. *)
Lemma check_time_notbefore_first (rule1 rule2 : sysdb_attrs) (now : time_t)
  (result : bool) (v : string) (vs1 vs2 : list string) :
  sysdb_attrs_get_string_array rule1 SYSDB_SUDO_CACHE_AT_NOTBEFORE
    = (EOK, v :: vs1) ->
  sysdb_attrs_get_string_array rule2 SYSDB_SUDO_CACHE_AT_NOTBEFORE
    = (EOK, v :: vs2) ->
  sysdb_attrs_get_string_array rule1 SYSDB_SUDO_CACHE_AT_NOTAFTER
    = sysdb_attrs_get_string_array rule2 SYSDB_SUDO_CACHE_AT_NOTAFTER ->
  sysdb_sudo_check_time rule1 now result
    = sysdb_sudo_check_time rule2 now result.
Proof.
  intros H1 H2 Ha. unfold sysdb_sudo_check_time, check_time_notafter.
  rewrite H1, H2, Ha. reflexivity.
Qed.

(** When the check succeeds, its verdict does not depend on what the
    caller's variable held before. *)
Lemma check_time_done_fresh (ret : errno_t) (r1 r2 : bool) :
  ret <> EOK ->
  fst (check_time_done ret r1) = fst (check_time_done ret r2)
  /\ (fst (check_time_done ret r1) = EOK ->
      snd (check_time_done ret r1) = snd (check_time_done ret r2)).
Proof.
  intros Hret. unfold check_time_done.
  destruct (ret =? ENOENT); cbn; auto.
  split; [reflexivity | intros; contradiction].
Qed.

Lemma check_time_notafter_fresh (rule : sysdb_attrs) (now : time_t)
  (r1 r2 : bool) :
  fst (check_time_notafter rule now r1) = fst (check_time_notafter rule now r2)
  /\ (fst (check_time_notafter rule now r1) = EOK ->
      snd (check_time_notafter rule now r1)
        = snd (check_time_notafter rule now r2)).
Proof.
  unfold check_time_notafter.
  destruct (sysdb_attrs_get_string_array rule SYSDB_SUDO_CACHE_AT_NOTAFTER)
    as [ret values].
  destruct (ret =? EOK) eqn:E; cbn [negb].
  - destruct values as [|v0 vs]; [auto|].
    destruct (strptime (last (v0 :: vs) v0) SYSDB_SUDO_TIME_FORMAT)
      as [[[|c s] t]|]; try (apply check_time_done_fresh; discriminate).
    destruct (now >? mktime t); auto.
  - apply check_time_done_fresh. intros ->. discriminate.
Qed.

Lemma check_time_fresh (rule : sysdb_attrs) (now : time_t) (r1 r2 : bool) :
  fst (sysdb_sudo_check_time rule now r1)
    = fst (sysdb_sudo_check_time rule now r2)
  /\ (fst (sysdb_sudo_check_time rule now r1) = EOK ->
      snd (sysdb_sudo_check_time rule now r1)
        = snd (sysdb_sudo_check_time rule now r2)).
Proof.
  unfold sysdb_sudo_check_time.
  destruct (sysdb_attrs_get_string_array rule SYSDB_SUDO_CACHE_AT_NOTBEFORE)
    as [ret values].
  destruct (ret =? EOK) eqn:E; cbn [negb].
  - destruct values as [|v0 vs]; [apply check_time_notafter_fresh|].
    destruct (strptime v0 SYSDB_SUDO_TIME_FORMAT)
      as [[[|c s] t]|]; try (apply check_time_done_fresh; discriminate).
    destruct (now <? mktime t); [auto | apply check_time_notafter_fresh].
  - apply check_time_done_fresh. intros ->. discriminate.
Qed.



Lemma rule_active_fresh (rule : sysdb_attrs) (now : time_t)
  (allowed : bool) :
  (let (ret, allowed') := sysdb_sudo_check_time rule now allowed in
   (ret =? EOK) && allowed') = rule_active now rule.
Proof.
  unfold rule_active.
  destruct (check_time_fresh rule now allowed false) as [Hf Hs].
  destruct (sysdb_sudo_check_time rule now allowed) as [ret a].
  destruct (sysdb_sudo_check_time rule now false) as [ret' a'].
  cbn in Hf, Hs. subst ret'.
  destruct (Z.eqb_spec ret EOK) as [->|]; cbn; [|reflexivity].
  apply Hs. reflexivity.
Qed.

Lemma filter_rules_loop_spec (in_rules : list sysdb_attrs) (now : time_t) :
  forall (allowed : bool) (rules : list sysdb_attrs),
  filter_rules_loop in_rules now allowed rules
    = (rules ++ List.filter (rule_active now) in_rules)%list.
Proof.
  induction in_rules as [|rule rest IH]; intros allowed rules; cbn.
  - now rewrite app_nil_r.
  - rewrite <- (rule_active_fresh rule now allowed).
    destruct (sysdb_sudo_check_time rule now allowed) as [ret a].
    destruct ((ret =? EOK) && a); rewrite IH; [|reflexivity].
    now rewrite <- app_assoc.
Qed.

End TimeWindowFacts.

(** C1. A rule that has no notBefore attribute and a single notAfter value
    T should be active exactly while [now <= T].  The code leaves through
    the [done] label as soon as the notBefore attribute is reported missing
    and never reads notAfter: one second after T the rule is still
    allowed, whereas the same rule with a notBefore attribute that is
    present without a value is refused. *)
Theorem C1_notafter_skipped_without_notbefore :
  @sysdb_sudo_check_time sssd_header Sample.libc
    (Sample.rule "r" None (Some [Sample.t2020])) (Sample.jan2020 + 1) false
    = (EOK, true)
  /\ @sysdb_sudo_check_time sssd_header Sample.libc
       (Sample.rule "r" (Some []) (Some [Sample.t2020]))
       (Sample.jan2020 + 1) false
     = (EOK, false).
Proof. split; vm_compute; reflexivity. Qed.

(** C2. With several notBefore values the earliest one should decide.  The
    code reads [values[0]] only: with the values 2021, 2020 (in this order)
    a rule is refused in June 2020, although with the single value 2020 it
    is allowed. *)
Theorem C2_notbefore_first_value_used :
  @sysdb_sudo_check_time sssd_header Sample.libc
    (Sample.rule "r" (Some [Sample.t2021; Sample.t2020]) None)
    Sample.jun2020 false
    = (EOK, false)
  /\ @sysdb_sudo_check_time sssd_header Sample.libc
       (Sample.rule "r" (Some [Sample.t2020]) None) Sample.jun2020 false
     = (EOK, true).
Proof. split; vm_compute; reflexivity. Qed.





(** ** Properties of the search filter *)

Section FilterFacts.
Context {hdr : SudoHeader}.

Lemma string_app_nil_r (s : string) : (s ++ EmptyString)%string = s.
Proof. induction s as [|c s IH]; cbn; [|rewrite IH]; reflexivity. Qed.

Lemma string_app_assoc (s1 s2 s3 : string) :
  ((s1 ++ s2) ++ s3)%string = (s1 ++ (s2 ++ s3))%string.
Proof. induction s1 as [|c s1 IH]; cbn; [|rewrite IH]; reflexivity. Qed.

(** Each step only appends to the string it is given. *)
Lemma filter_uid_appends (flags : Z) (uid : uid_t) (sf : string) :
  filter_uid flags uid sf = (sf ++ filter_uid flags uid EmptyString)%string.
Proof.
  unfold filter_uid.
  destruct (flag_set flags SYSDB_SUDO_FILTER_UID && negb (uid =? 0)).
  - reflexivity.
  - now rewrite string_app_nil_r.
Qed.

Lemma filter_groups_loop_appends (names : list string) :
  forall sf : string,
  filter_groups_loop names sf
    = (sf ++ filter_groups_loop names EmptyString)%string.
Proof.
  induction names as [|g rest IH]; intros sf; cbn [filter_groups_loop].
  - now rewrite string_app_nil_r.
  - rewrite IH. rewrite (IH (String.append EmptyString _)).
    rewrite string_app_assoc. reflexivity.
Qed.

Lemma filter_groups_appends (flags : Z) (groupnames : option (list string))
  (sf : string) :
  filter_groups flags groupnames sf
    = (sf ++ filter_groups flags groupnames EmptyString)%string.
Proof.
  unfold filter_groups.
  destruct (flag_set flags SYSDB_SUDO_FILTER_GROUPS), groupnames;
    try (now rewrite string_app_nil_r).
  apply filter_groups_loop_appends.
Qed.

Lemma filter_ngrs_appends (flags : Z) (sf : string) :
  filter_ngrs flags sf = (sf ++ filter_ngrs flags EmptyString)%string.
Proof.
  unfold filter_ngrs. destruct (flag_set flags SYSDB_SUDO_FILTER_NGRS).
  - reflexivity.
  - now rewrite string_app_nil_r.
Qed.

End FilterFacts.



(** ** Properties of the cache operations *)

Section CacheFacts.
Context {hdr : SudoHeader} {db : Sysdb}.

(** [sysdb_get_sudo_user_info] ends in [return EOK], whatever [ret]
    holds at the [done] label. *)
Lemma user_info_returns_EOK (sysdb : sysdb_ctx) (username : string)
  (_uid : uid_t) (groupnames : option (list string)) :
  fst (fst (sysdb_get_sudo_user_info sysdb username _uid groupnames)) = EOK.
Proof.
  unfold sysdb_get_sudo_user_info.
  destruct (user_info_body sysdb username _uid groupnames) as [[ret u] g].
  reflexivity.
Qed.

(** So does [sysdb_sudo_purge_subdir]. *)
Lemma purge_subdir_returns_EOK (sysdb : sysdb_ctx)
  (domain_name subdir : string) :
  fst (sysdb_sudo_purge_subdir sysdb domain_name subdir) = EOK.
Proof.
  unfold sysdb_sudo_purge_subdir.
  destruct (sysdb_custom_subtree_dn sysdb domain_name subdir) as [dn|];
    [|reflexivity].
  destruct (sysdb_delete_recursive sysdb dn true). reflexivity.
Qed.

(** The purge loop while the deletions succeed. *)
Lemma purge_loop_app (pre : list ldb_message) :
  forall (sysdb : sysdb_ctx) (rest : list ldb_message),
  deletes_succeed sysdb (rule_names pre) ->
  purge_loop sysdb (pre ++ rest)
    = purge_loop (delete_all sysdb (rule_names pre)) rest.
Proof.
  induction pre as [|msg pre IH]; intros sysdb rest Hok; cbn.
  - reflexivity.
  - cbn in Hok.
    destruct (ldb_msg_find_attr_as_string msg SYSDB_NAME) as [name|].
    + cbn in Hok |- *. destruct Hok as [Hret Hok].
      destruct (sysdb_delete_custom sysdb name SUDORULE_SUBDIR)
        as [ret sysdb'].
      cbn in Hret, Hok |- *. subst ret. cbn. now apply IH.
    + now apply IH.
Qed.

Lemma purge_loop_ok (msgs : list ldb_message) (sysdb : sysdb_ctx) :
  deletes_succeed sysdb (rule_names msgs) ->
  purge_loop sysdb msgs = (EOK, delete_all sysdb (rule_names msgs)).
Proof.
  intros Hok. rewrite <- (app_nil_r msgs) at 1.
  now rewrite purge_loop_app.
Qed.

End CacheFacts.

(** C3. [sysdb_get_sudo_user_info] should fail when the user is unknown
    and when the entry has no uid.  The code sets [ret] to the error
    ([ENOENT] from the lookup, [EIO] for the missing uid) and then returns
    [EOK]: the caller is told of success while its uid and group variables
    keep what they held (here 0 and NULL).  For a regular user the uid and
    the group names are written. *)
Theorem C3_user_info_reports_success_on_failure :
  (forall (hdr : SudoHeader) (db : Sysdb) (sysdb : sysdb_ctx)
          (username : string) (_uid : uid_t)
          (groupnames : option (list string)),
     fst (fst (sysdb_get_sudo_user_info sysdb username _uid groupnames))
       = EOK)
  /\ fst (fst (@user_info_body sssd_header Sample.sysdb Sample.cache
              "nobody" 0 None)) = ENOENT
  /\ @sysdb_get_sudo_user_info sssd_header Sample.sysdb Sample.cache
       "nobody" 0 None = (EOK, 0, None)
  /\ fst (fst (@user_info_body sssd_header Sample.sysdb Sample.cache
                 "ghost" 0 None)) = EIO
  /\ @sysdb_get_sudo_user_info sssd_header Sample.sysdb Sample.cache
       "ghost" 0 None = (EOK, 0, None)
  /\ @sysdb_get_sudo_user_info sssd_header Sample.sysdb Sample.cache
       "alice" 0 None = (EOK, 1000, Some ["wheel"; "adm"]).
Proof.
  split; [intros; apply user_info_returns_EOK|].
  repeat split; vm_compute; reflexivity.
Qed.

(** C4. A failure of the recursive delete should reach the caller of
    [sysdb_purge_sudorule_subtree].  [sysdb_sudo_purge_subdir] ends in
    [return EOK]: on a cache whose subtree delete fails with [EIO], the
    purge without a filter returns [EOK] and the rules are all still
    there. *)
Theorem C4_purge_all_reports_success_on_failure :
  (forall (hdr : SudoHeader) (db : Sysdb) (sysdb : sysdb_ctx)
          (domain_name : string),
     fst (sysdb_purge_sudorule_subtree sysdb domain_name None) = EOK)
  /\ fst (@sysdb_delete_recursive Sample.sysdb Sample.cache_locked
         "cn=sudorules,cn=custom,cn=example,cn=sysdb" true) = EIO
  /\ @sysdb_purge_sudorule_subtree sssd_header Sample.sysdb
       Sample.cache_locked "example" None
     = (EOK, Sample.cache_locked).
Proof.
  split; [intros; apply purge_subdir_returns_EOK|].
  split; vm_compute; reflexivity.
Qed.

(** C8. With a filter, when the search succeeds or reports that nothing
    matched, and the deletions of the named matches succeed, the purge
    succeeds and has deleted exactly the named matches, in order: a match
    without a name is passed over and the matches after it are still
    deleted; when nothing matched, nothing is deleted. *)
Theorem C8_purge_matching_skips_nameless
  {hdr : SudoHeader} {db : Sysdb} (sysdb : sysdb_ctx)
  (domain_name filter : string) (ret : errno_t) (msgs : list ldb_message) :
  sysdb_search_custom sysdb filter SUDORULE_SUBDIR
    [SYSDB_OBJECTCLASS; SYSDB_NAME;
     SYSDB_SUDO_CACHE_AT_OC; SYSDB_SUDO_CACHE_AT_CN] = (ret, msgs) ->
  ret = EOK \/ ret = ENOENT ->
  deletes_succeed sysdb (rule_names (matched ret msgs)) ->
  sysdb_purge_sudorule_subtree sysdb domain_name (Some filter)
    = (EOK, delete_all sysdb (rule_names (matched ret msgs))).
Proof.
  intros Hsearch Hret Hok. unfold sysdb_purge_sudorule_subtree.
  rewrite Hsearch. destruct Hret as [-> | ->].
  - cbn in Hok |- *. now apply purge_loop_ok.
  - reflexivity.
Qed.

(** The rules for ALL: [r2] has no name and stays, [r1], [r3] and [r5] are
    deleted. *)
Lemma C8_purge_matching_witness :
  let result :=
    @sysdb_purge_sudorule_subtree sssd_header Sample.sysdb Sample.cache
      "example" (Some "(sudoUser=ALL)") in
  @rule_names sssd_header
    (snd (@sysdb_search_custom Sample.sysdb Sample.cache "(sudoUser=ALL)"
            "sudorules" ["objectClass"; "name"; "sudoRule"; "cn"]))
    = ["r1"; "r3"; "r5"]
  /\ fst result = EOK
  /\ map fst (MemSysdb.mem_rules (snd result)) = ["r2"; "r4"].
Proof.
  intros result. split; [vm_compute; reflexivity|].
  unfold result.
  rewrite (@C8_purge_matching_skips_nameless sssd_header Sample.sysdb
             Sample.cache "example" "(sudoUser=ALL)" EOK
             (map snd [Sample.stored "r1" true "ALL";
                       Sample.stored "r2" false "ALL";
                       Sample.stored "r3" true "ALL";
                       Sample.stored "r5" true "ALL"])).
  - split; vm_compute; reflexivity.
  - vm_compute. reflexivity.
  - left. reflexivity.
  - vm_compute. repeat split; reflexivity.
Defined.

(** A filter that matches no rule: the search reports [ENOENT], the purge
    succeeds and the cache is as before. *)
Example purge_matching_nothing :
  fst (@sysdb_search_custom Sample.sysdb Sample.cache "(sudoUser=carol)"
         "sudorules" ["objectClass"; "name"; "sudoRule"; "cn"]) = ENOENT
  /\ @sysdb_purge_sudorule_subtree sssd_header Sample.sysdb Sample.cache
       "example" (Some "(sudoUser=carol)") = (EOK, Sample.cache).
Proof. split; vm_compute; reflexivity. Qed.

(** C9. With a filter, when the deletion of one named match fails, the
    purge stops there and returns that error: the cache is the one this
    failed deletion left, and the matches after it are not touched. *)
Theorem C9_purge_matching_stops_at_failed_delete
  {hdr : SudoHeader} {db : Sysdb} (sysdb sysdb' : sysdb_ctx)
  (domain_name filter name : string) (err : errno_t)
  (pre post : list ldb_message) (msg : ldb_message) :
  sysdb_search_custom sysdb filter SUDORULE_SUBDIR
    [SYSDB_OBJECTCLASS; SYSDB_NAME;
     SYSDB_SUDO_CACHE_AT_OC; SYSDB_SUDO_CACHE_AT_CN]
    = (EOK, (pre ++ msg :: post)%list) ->
  deletes_succeed sysdb (rule_names pre) ->
  ldb_msg_find_attr_as_string msg SYSDB_NAME = Some name ->
  sysdb_delete_custom (delete_all sysdb (rule_names pre)) name SUDORULE_SUBDIR
    = (err, sysdb') ->
  err <> EOK ->
  sysdb_purge_sudorule_subtree sysdb domain_name (Some filter)
    = (err, sysdb').
Proof.
  intros Hsearch Hok Hname Hdel Herr. unfold sysdb_purge_sudorule_subtree.
  rewrite Hsearch. cbn [negb Z.eqb EOK ENOENT andb].
  rewrite (purge_loop_app pre _ _ Hok). cbn [purge_loop].
  rewrite Hname, Hdel.
  destruct (Z.eqb_spec err EOK) as [->|_]; [contradiction|reflexivity].
Qed.

(** The rules for ALL when [r3] cannot be deleted: [r1] is deleted, the
    purge fails with [EIO] at [r3], and [r5] is still there. *)
Lemma C9_purge_matching_witness :
  let result :=
    @sysdb_purge_sudorule_subtree sssd_header Sample.sysdb
      Sample.cache_r3_readonly "example" (Some "(sudoUser=ALL)") in
  fst result = EIO
  /\ map fst (MemSysdb.mem_rules (snd result)) = ["r2"; "r3"; "r4"; "r5"].
Proof.
  intros result. unfold result.
  rewrite (@C9_purge_matching_stops_at_failed_delete sssd_header Sample.sysdb
             Sample.cache_r3_readonly
             (MemSysdb.mk_ctx Sample.users
                (MemSysdb.remove_key "r1" Sample.rules) ["r3"] false)
             "example" "(sudoUser=ALL)" "r3" EIO
             (map snd [Sample.stored "r1" true "ALL";
                       Sample.stored "r2" false "ALL"])
             (map snd [Sample.stored "r5" true "ALL"])
             (snd (Sample.stored "r3" true "ALL"))).
  - split; vm_compute; reflexivity.
  - vm_compute. reflexivity.
  - vm_compute. repeat split; reflexivity.
  - vm_compute. reflexivity.
  - vm_compute. reflexivity.
  - vm_compute. discriminate.
Defined.

(** C10. [sysdb_save_sudorule] first appends the object class and the
    name to the bag it is given and then stores that bag.  When the first
    append has succeeded and the second append or the store fails, the
    error is returned and the caller's bag is the one the appends have
    produced, not the bag as it was passed in; the cache is what the store
    left (untouched when the store was not reached). *)
Theorem C10_save_keeps_appended_attrs_on_failure
  {hdr : SudoHeader} {db : Sysdb} (sysdb sysdb' : sysdb_ctx)
  (rule_name : string) (attrs attrs1 attrs2 : sysdb_attrs)
  (ret2 ret3 : errno_t) :
  sysdb_attrs_add_string attrs SYSDB_OBJECTCLASS SYSDB_SUDO_CACHE_AT_OC
    = (EOK, attrs1) ->
  sysdb_attrs_add_string attrs1 SYSDB_NAME rule_name = (ret2, attrs2) ->
  sysdb_store_custom sysdb rule_name SUDORULE_SUBDIR attrs2 = (ret3, sysdb') ->
  ret2 <> EOK \/ ret3 <> EOK ->
  sysdb_save_sudorule sysdb rule_name attrs
    = (if ret2 =? EOK then ret3 else ret2,
       attrs2,
       if ret2 =? EOK then sysdb' else sysdb)
  /\ fst (fst (sysdb_save_sudorule sysdb rule_name attrs)) <> EOK.
Proof.
  intros H1 H2 H3 Hfail.
  assert (E : sysdb_save_sudorule sysdb rule_name attrs
              = (if ret2 =? EOK then ret3 else ret2, attrs2,
                 if ret2 =? EOK then sysdb' else sysdb)).
  { unfold sysdb_save_sudorule. rewrite H1. cbn [negb Z.eqb EOK].
    rewrite H2. destruct (Z.eqb_spec ret2 EOK) as [E2|E2]; cbn [negb].
    - rewrite H3. destruct (Z.eqb_spec ret3 EOK) as [E3|E3]; cbn [negb].
      + destruct Hfail; contradiction.
      + reflexivity.
    - reflexivity. }
  split; [exact E|]. rewrite E. cbn [fst].
  destruct (Z.eqb_spec ret2 EOK) as [E2|E2]; [|exact E2].
  destruct Hfail as [Hf|Hf]; [contradiction|exact Hf].
Qed.

(** Saving [r3] into the cache that cannot write it: the store fails with
    [EIO], and the bag has gained the object class and the name. *)
Lemma C10_save_witness :
  @sysdb_save_sudorule sssd_header Sample.sysdb Sample.cache_r3_readonly
    "r3" [mk_element "cn" ["r3"]]
  = (EIO,
     [mk_element "cn" ["r3"]; mk_element "objectClass" ["sudoRule"];
      mk_element "name" ["r3"]],
     Sample.cache_r3_readonly).
Proof.
  destruct (@C10_save_keeps_appended_attrs_on_failure sssd_header Sample.sysdb
              Sample.cache_r3_readonly Sample.cache_r3_readonly "r3"
              [mk_element "cn" ["r3"]]
              [mk_element "cn" ["r3"]; mk_element "objectClass" ["sudoRule"]]
              [mk_element "cn" ["r3"]; mk_element "objectClass" ["sudoRule"];
               mk_element "name" ["r3"]]
              EOK EIO) as [E _].
  - vm_compute. reflexivity.
  - vm_compute. reflexivity.
  - vm_compute. reflexivity.
  - right. vm_compute. discriminate.
  - rewrite E. reflexivity.
Defined.

(** ** Further properties of the time window *)










(** X6. A successful check always writes its verdict: what the caller's
    variable held before the call has no influence on it. *)
Theorem X6_check_time_verdict_fresh
  {hdr : SudoHeader} {libc : Libc} (rule : sysdb_attrs) (now : time_t)
  (result1 result2 allowed : bool) :
  sysdb_sudo_check_time rule now result1 = (EOK, allowed) ->
  sysdb_sudo_check_time rule now result2 = (EOK, allowed).
Proof.
  intros H1.
  destruct (check_time_fresh rule now result1 result2) as [Hf Hs].
  rewrite H1 in Hf, Hs. cbn [fst snd] in Hf, Hs.
  destruct (sysdb_sudo_check_time rule now result2) as [ret a].
  cbn [fst snd] in Hf, Hs. subst ret. now rewrite (Hs eq_refl).
Qed.

(** An expired rule is refused whether the variable held true or false. *)
Lemma X6_check_time_verdict_fresh_witness :
  let rule := Sample.rule "r" (Some [Sample.t2019]) (Some [Sample.t2020]) in
  @sysdb_sudo_check_time sssd_header Sample.libc rule Sample.jun2020 false
    = (EOK, false)
  /\ @sysdb_sudo_check_time sssd_header Sample.libc rule Sample.jun2020 true
     = (EOK, false).
Proof.
  intros rule.
  assert (H : @sysdb_sudo_check_time sssd_header Sample.libc rule
                Sample.jun2020 false = (EOK, false))
    by (vm_compute; reflexivity).
  split; [exact H|].
  exact (@X6_check_time_verdict_fresh sssd_header Sample.libc rule
           Sample.jun2020 false true false H).
Defined.

(** ** Further properties of the rule set filter *)


Lemma filter_rules_by_time_spec {hdr : SudoHeader} {libc : Libc}
  (in_rules : list sysdb_attrs) (now : time_t) :
  sysdb_sudo_filter_rules_by_time in_rules now
    = (EOK, List.filter (rule_active (effective_now now)) in_rules).
Proof.
  unfold sysdb_sudo_filter_rules_by_time, effective_now.
  now rewrite filter_rules_loop_spec.
Qed.



(** X9. The reference time 0 stands for the clock: the result is the one
    obtained by passing the time the clock shows. *)
Theorem X9_filter_rules_by_time_zero_is_clock
  {hdr : SudoHeader} {libc : Libc} (in_rules : list sysdb_attrs) :
  sysdb_sudo_filter_rules_by_time in_rules 0
  = sysdb_sudo_filter_rules_by_time in_rules time.
Proof.
  rewrite !filter_rules_by_time_spec. unfold effective_now.
  cbn [Z.eqb]. destruct (time =? 0); reflexivity.
Qed.

(** ** Further properties of the search filter *)

Section MoreFilterFacts.
Context {hdr : SudoHeader}.

Lemma filter_include_dfl_appends (flags : Z) (sf : string) :
  filter_include_dfl flags sf
    = (sf ++ filter_include_dfl flags EmptyString)%string.
Proof.
  unfold filter_include_dfl.
  destruct (flag_set flags SYSDB_SUDO_FILTER_INCLUDE_DFL).
  - reflexivity.
  - now rewrite string_app_nil_r.
Qed.

Lemma filter_groups_loop_concat (names : list string) :
  filter_groups_loop names EmptyString
    = concat_strings (map group_clause names).
Proof.
  induction names as [|g rest IH]; [reflexivity|].
  cbn [filter_groups_loop map concat_strings fold_right].
  rewrite filter_groups_loop_appends, IH. reflexivity.
Qed.

Lemma flag_set_clear (flags flag : Z) :
  Z.land flags flag = 0 -> flag_set flags flag = false.
Proof. unfold flag_set. intros ->. reflexivity. Qed.

End MoreFilterFacts.

(** X10. The specific filter is made of the clauses of the enabled
    criteria in one fixed order: ALL, defaults, user name, uid, the groups
    in the order of the list with one clause each, netgroups.  The uid
    clause needs a uid other than 0, the group clauses a list of groups. *)
Theorem X10_specific_filter_clauses
  {hdr : SudoHeader} (username : option string) (uid : uid_t)
  (groupnames : option (list string)) (flags : Z) :
  sudo_specific_filter username uid groupnames flags
  = ((if flag_set flags SYSDB_SUDO_FILTER_INCLUDE_ALL
      then "(" ++ SYSDB_SUDO_CACHE_AT_USER ++ "=ALL)" else EmptyString)
     ++ (if flag_set flags SYSDB_SUDO_FILTER_INCLUDE_DFL
         then "(" ++ SYSDB_NAME ++ "=defaults)" else EmptyString)
     ++ match username with
        | Some name =>
            if flag_set flags SYSDB_SUDO_FILTER_USERNAME
            then "(" ++ SYSDB_SUDO_CACHE_AT_USER ++ "=" ++ name ++ ")"
            else EmptyString
        | None => EmptyString
        end
     ++ (if flag_set flags SYSDB_SUDO_FILTER_UID && negb (uid =? 0)%Z
         then "(" ++ SYSDB_SUDO_CACHE_AT_USER ++ "=#" ++ print_llu uid ++ ")"
         else EmptyString)
     ++ match groupnames with
        | Some names =>
            if flag_set flags SYSDB_SUDO_FILTER_GROUPS
            then concat_strings (map group_clause names)
            else EmptyString
        | None => EmptyString
        end
     ++ (if flag_set flags SYSDB_SUDO_FILTER_NGRS
         then "(" ++ SYSDB_SUDO_CACHE_AT_USER ++ "=+*)"
         else EmptyString))%string.
Proof.
  unfold sudo_specific_filter.
  rewrite filter_ngrs_appends, filter_groups_appends, filter_uid_appends.
  assert (Hu : forall sf,
            filter_username flags username sf
            = (sf ++ match username with
                     | Some name =>
                         if flag_set flags SYSDB_SUDO_FILTER_USERNAME
                         then "(" ++ SYSDB_SUDO_CACHE_AT_USER ++ "="
                                ++ name ++ ")"
                         else EmptyString
                     | None => EmptyString
                     end)%string).
  { intros sf. unfold filter_username.
    destruct (flag_set flags SYSDB_SUDO_FILTER_USERNAME), username;
      try (now rewrite string_app_nil_r); reflexivity. }
  assert (Hg : filter_groups flags groupnames EmptyString
               = match groupnames with
                 | Some names =>
                     if flag_set flags SYSDB_SUDO_FILTER_GROUPS
                     then concat_strings (map group_clause names)
                     else EmptyString
                 | None => EmptyString
                 end).
  { unfold filter_groups.
    destruct (flag_set flags SYSDB_SUDO_FILTER_GROUPS), groupnames;
      try reflexivity.
    apply filter_groups_loop_concat. }
  rewrite Hu, Hg, filter_include_dfl_appends.
  rewrite !string_app_assoc. reflexivity.
Qed.

(** X11. Without any flag the filter is the object class test alone,
    whatever user name, uid and groups are passed. *)
Theorem X11_filter_without_flags
  {hdr : SudoHeader} (username : option string) (uid : uid_t)
  (groupnames : option (list string)) :
  sysdb_get_sudo_filter username uid groupnames 0
  = (EOK,
     ("(&(" ++ SYSDB_OBJECTCLASS ++ "=" ++ SYSDB_SUDO_CACHE_AT_OC ++ "))")
       %string).
Proof.
  unfold sysdb_get_sudo_filter, sudo_specific_filter, filter_ngrs,
    filter_groups, filter_uid, filter_username, filter_include_dfl,
    filter_include_all, flag_set.
  cbn [Z.land Z.eqb negb andb].
  repeat (progress cbn [String.append] || rewrite string_app_assoc).
  reflexivity.
Qed.

(** X12. A user information flag whose datum is missing adds nothing:
    with no user name, the uid 0 and no group (a NULL array or an empty
    one), and the ALL, defaults and netgroup flags off, the filter is the
    object class test alone, without an empty OR group. *)
Theorem X12_filter_unmet_flags
  {hdr : SudoHeader} (groupnames : option (list string)) (flags : Z) :
  Z.land flags SYSDB_SUDO_FILTER_INCLUDE_ALL = 0 ->
  Z.land flags SYSDB_SUDO_FILTER_INCLUDE_DFL = 0 ->
  Z.land flags SYSDB_SUDO_FILTER_NGRS = 0 ->
  groupnames = None \/ groupnames = Some [] ->
  sysdb_get_sudo_filter None 0 groupnames flags
  = (EOK,
     ("(&(" ++ SYSDB_OBJECTCLASS ++ "=" ++ SYSDB_SUDO_CACHE_AT_OC ++ "))")
       %string).
Proof.
  intros Hall Hdfl Hngrs Hg.
  assert (Hsf : sudo_specific_filter None 0 groupnames flags = EmptyString).
  { unfold sudo_specific_filter, filter_ngrs, filter_groups, filter_uid,
      filter_username, filter_include_dfl, filter_include_all.
    rewrite (flag_set_clear _ _ Hall), (flag_set_clear _ _ Hdfl),
      (flag_set_clear _ _ Hngrs).
    cbn [Z.eqb negb]. rewrite andb_false_r.
    destruct (flag_set flags SYSDB_SUDO_FILTER_USERNAME),
      (flag_set flags SYSDB_SUDO_FILTER_GROUPS);
      destruct Hg as [-> | ->]; reflexivity. }
  unfold sysdb_get_sudo_filter. rewrite Hsf.
  repeat (progress cbn [String.append] || rewrite string_app_assoc).
  reflexivity.
Qed.

(** All three user information flags, and nothing to match them with. *)
Lemma X12_filter_unmet_flags_witness :
  @sysdb_get_sudo_filter sssd_header None 0 (Some []) 7
  = (EOK, "(&(objectClass=sudoRule))").
Proof.
  rewrite (@X12_filter_unmet_flags sssd_header (Some []) 7);
    try reflexivity.
  right. reflexivity.
Defined.

(** ** Further properties of the cache operations *)

Section MoreCacheFacts.
Context {hdr : SudoHeader} {db : Sysdb}.

Lemma user_info_groups_loop_ok (sysdb : sysdb_ctx) (dns : list string) :
  forall names : list string,
  groups_resolve sysdb dns ->
  user_info_groups_loop sysdb dns names
    = (EOK, (names ++ group_names sysdb dns)%list).
Proof.
  induction dns as [|d rest IH]; intros names Hok; cbn.
  - now rewrite app_nil_r.
  - inversion Hok as [|? ? Hd Hrest]; subst.
    destruct (sysdb_group_dn_name sysdb d) as [ret name].
    cbn in Hd |- *. subst ret. cbn.
    rewrite (IH _ Hrest). now rewrite <- app_assoc.
Qed.

Lemma user_info_groups_loop_fails (sysdb : sysdb_ctx) (dns : list string) :
  forall names : list string,
  Exists (fun d => fst (sysdb_group_dn_name sysdb d) <> EOK) dns ->
  fst (user_info_groups_loop sysdb dns names) = ENOMEM.
Proof.
  induction dns as [|d rest IH]; intros names Hbad; cbn.
  - inversion Hbad.
  - destruct (sysdb_group_dn_name sysdb d) as [ret name] eqn:E.
    destruct (Z.eqb_spec ret EOK) as [->|Hne]; cbn; [|reflexivity].
    apply IH. inversion Hbad as [? ? Hd|? ? Hrest]; subst; [|exact Hrest].
    rewrite E in Hd. now destruct Hd.
Qed.

End MoreCacheFacts.

(** X13. For a user that is found, has a uid other than 0 and whose
    memberOf values are all resolved, the uid is written as it is stored
    (as a 32 bit number) and the groups are the names of the memberOf
    values, in their order. *)
Theorem X13_user_info_success
  {hdr : SudoHeader} {db : Sysdb} (sysdb : sysdb_ctx) (username : string)
  (_uid : uid_t) (groupnames : option (list string)) (msg : ldb_message)
  (el : ldb_message_element) :
  sysdb_search_user_by_name sysdb username [SYSDB_MEMBEROF; SYSDB_UIDNUM]
    = (EOK, msg) ->
  ldb_msg_find_attr_as_uint64 msg SYSDB_UIDNUM 0 mod 2 ^ 32 <> 0 ->
  ldb_msg_find_element msg SYSDB_MEMBEROF = Some el ->
  el_values el <> [] ->
  groups_resolve sysdb (el_values el) ->
  sysdb_get_sudo_user_info sysdb username _uid groupnames
    = (EOK, ldb_msg_find_attr_as_uint64 msg SYSDB_UIDNUM 0 mod 2 ^ 32,
       Some (group_names sysdb (el_values el))).
Proof.
  intros Hs Huid Hel Hne Hok.
  unfold sysdb_get_sudo_user_info, user_info_body.
  rewrite Hs. cbn [negb Z.eqb EOK].
  destruct (Z.eqb_spec (ldb_msg_find_attr_as_uint64 msg SYSDB_UIDNUM 0
                          mod 2 ^ 32) 0) as [E|_]; [contradiction|].
  rewrite Hel. destruct el as [n vs]. cbn [el_values] in *.
  destruct vs as [|v vs]; [contradiction|].
  rewrite (user_info_groups_loop_ok _ Hok). reflexivity.
Qed.

(** The user alice of the sample store. *)
Lemma X13_user_info_success_witness :
  @sysdb_get_sudo_user_info sssd_header Sample.sysdb MoreSample.cache
    "alice" 0 None
  = (EOK, 1000, Some ["wheel"; "adm"]).
Proof.
  rewrite (@X13_user_info_success sssd_header Sample.sysdb MoreSample.cache
             "alice" 0 None
             [mk_element "uidNumber" ["1000"];
              mk_element "memberOf"
                ["name=wheel,cn=groups,cn=example,cn=sysdb";
                 "name=adm,cn=groups,cn=example,cn=sysdb"]]
             (mk_element "memberOf"
                ["name=wheel,cn=groups,cn=example,cn=sysdb";
                 "name=adm,cn=groups,cn=example,cn=sysdb"])).
  - vm_compute. reflexivity.
  - vm_compute. reflexivity.
  - vm_compute. discriminate.
  - vm_compute. reflexivity.
  - discriminate.
  - repeat constructor.
Defined.

(** X14. For a user that is found and has a uid other than 0 but no
    memberOf attribute, or one without a value, the uid is written and the
    group array is set to NULL, whatever it held before; this is not an
    error. *)
Theorem X14_user_info_no_groups
  {hdr : SudoHeader} {db : Sysdb} (sysdb : sysdb_ctx) (username : string)
  (_uid : uid_t) (groupnames : option (list string)) (msg : ldb_message) :
  sysdb_search_user_by_name sysdb username [SYSDB_MEMBEROF; SYSDB_UIDNUM]
    = (EOK, msg) ->
  ldb_msg_find_attr_as_uint64 msg SYSDB_UIDNUM 0 mod 2 ^ 32 <> 0 ->
  ldb_msg_find_element msg SYSDB_MEMBEROF = None
  \/ (exists el, ldb_msg_find_element msg SYSDB_MEMBEROF = Some el
                 /\ el_values el = []) ->
  user_info_body sysdb username _uid groupnames
    = (EOK, ldb_msg_find_attr_as_uint64 msg SYSDB_UIDNUM 0 mod 2 ^ 32, None)
  /\ sysdb_get_sudo_user_info sysdb username _uid groupnames
     = (EOK, ldb_msg_find_attr_as_uint64 msg SYSDB_UIDNUM 0 mod 2 ^ 32,
        None).
Proof.
  intros Hs Huid Hel.
  assert (E : user_info_body sysdb username _uid groupnames
              = (EOK, ldb_msg_find_attr_as_uint64 msg SYSDB_UIDNUM 0
                        mod 2 ^ 32, None)).
  { unfold user_info_body. rewrite Hs. cbn [negb Z.eqb EOK].
    destruct (Z.eqb_spec (ldb_msg_find_attr_as_uint64 msg SYSDB_UIDNUM 0
                            mod 2 ^ 32) 0) as [E|_]; [contradiction|].
    destruct Hel as [-> | [[n vs] [-> Hvs]]]; [reflexivity|].
    cbn [el_values] in Hvs. subst vs. reflexivity. }
  split; [exact E|]. unfold sysdb_get_sudo_user_info. now rewrite E.
Qed.

(** The user bob, who is in no group, looked up by a caller whose group
    variable still holds an older list. *)
Lemma X14_user_info_no_groups_witness :
  @sysdb_get_sudo_user_info sssd_header Sample.sysdb MoreSample.cache
    "bob" 0 (Some ["stale"])
  = (EOK, 1001, None).
Proof.
  destruct (@X14_user_info_no_groups sssd_header Sample.sysdb
              MoreSample.cache "bob" 0 (Some ["stale"])
              [mk_element "uidNumber" ["1001"]]) as [_ E].
  - vm_compute. reflexivity.
  - vm_compute. discriminate.
  - left. vm_compute. reflexivity.
  - rewrite E. vm_compute. reflexivity.
Defined.

(** X15. When one of the memberOf values of a user cannot be resolved,
    the error is replaced by [ENOMEM] whatever it was, and neither the uid
    nor the groups are written, although the uid was found. *)
Theorem X15_user_info_group_failure
  {hdr : SudoHeader} {db : Sysdb} (sysdb : sysdb_ctx) (username : string)
  (_uid : uid_t) (groupnames : option (list string)) (msg : ldb_message)
  (el : ldb_message_element) :
  sysdb_search_user_by_name sysdb username [SYSDB_MEMBEROF; SYSDB_UIDNUM]
    = (EOK, msg) ->
  ldb_msg_find_attr_as_uint64 msg SYSDB_UIDNUM 0 mod 2 ^ 32 <> 0 ->
  ldb_msg_find_element msg SYSDB_MEMBEROF = Some el ->
  Exists (fun d => fst (sysdb_group_dn_name sysdb d) <> EOK)
    (el_values el) ->
  user_info_body sysdb username _uid groupnames
    = (ENOMEM, _uid, groupnames)
  /\ sysdb_get_sudo_user_info sysdb username _uid groupnames
     = (EOK, _uid, groupnames).
Proof.
  intros Hs Huid Hel Hbad.
  assert (E : user_info_body sysdb username _uid groupnames
              = (ENOMEM, _uid, groupnames)).
  { unfold user_info_body. rewrite Hs. cbn [negb Z.eqb EOK].
    destruct (Z.eqb_spec (ldb_msg_find_attr_as_uint64 msg SYSDB_UIDNUM 0
                            mod 2 ^ 32) 0) as [E|_]; [contradiction|].
    rewrite Hel. destruct el as [n vs]. cbn [el_values] in Hbad.
    destruct vs as [|v vs]; [inversion Hbad|].
    pose proof (user_info_groups_loop_fails sysdb [] Hbad) as Hf.
    destruct (user_info_groups_loop sysdb (v :: vs) []) as [ret names].
    cbn [fst] in Hf. subst ret. reflexivity. }
  split; [exact E|]. unfold sysdb_get_sudo_user_info. now rewrite E.
Qed.

(** The user carol, whose second group DN is not a group DN. *)
Lemma X15_user_info_group_failure_witness :
  fst (@sysdb_group_dn_name Sample.sysdb MoreSample.cache "cn=broken")
    = EINVAL
  /\ @user_info_body sssd_header Sample.sysdb MoreSample.cache
       "carol" 7 (Some ["stale"]) = (ENOMEM, 7, Some ["stale"])
  /\ @sysdb_get_sudo_user_info sssd_header Sample.sysdb MoreSample.cache
       "carol" 7 (Some ["stale"]) = (EOK, 7, Some ["stale"]).
Proof.
  split; [vm_compute; reflexivity|].
  apply (@X15_user_info_group_failure sssd_header Sample.sysdb
           MoreSample.cache "carol" 7 (Some ["stale"])
           [mk_element "uidNumber" ["1002"];
            mk_element "memberOf"
              ["name=staff,cn=groups,cn=example,cn=sysdb";
               "cn=broken";
               "name=adm,cn=groups,cn=example,cn=sysdb"]]
           (mk_element "memberOf"
              ["name=staff,cn=groups,cn=example,cn=sysdb";
               "cn=broken";
               "name=adm,cn=groups,cn=example,cn=sysdb"])).
  - vm_compute. reflexivity.
  - vm_compute. discriminate.
  - vm_compute. reflexivity.
  - apply Exists_cons_tl, Exists_cons_hd. vm_compute. discriminate.
Defined.

(** X16. The two outputs are written together or not at all: after the
    call either both hold what they held before, or the uid is a number
    from 1 to 2^32 - 1 and the lookup has succeeded.  The uid 0 is never
    written. *)
Theorem X16_user_info_outputs_all_or_nothing
  {hdr : SudoHeader} {db : Sysdb} (sysdb : sysdb_ctx) (username : string)
  (_uid : uid_t) (groupnames : option (list string)) :
  sysdb_get_sudo_user_info sysdb username _uid groupnames
    = (EOK, _uid, groupnames)
  \/ exists (uid : uid_t) (names : option (list string)),
       sysdb_get_sudo_user_info sysdb username _uid groupnames
         = (EOK, uid, names)
       /\ 0 < uid < 2 ^ 32
       /\ fst (fst (user_info_body sysdb username _uid groupnames)) = EOK.
Proof.
  unfold sysdb_get_sudo_user_info, user_info_body.
  destruct (sysdb_search_user_by_name sysdb username
              [SYSDB_MEMBEROF; SYSDB_UIDNUM]) as [ret msg].
  destruct (ret =? EOK); cbn [negb]; [|now left].
  set (uid := ldb_msg_find_attr_as_uint64 msg SYSDB_UIDNUM 0 mod 2 ^ 32).
  assert (Hrange : 0 <= uid < 2 ^ 32)
    by (apply Z.mod_pos_bound; reflexivity).
  destruct (Z.eqb_spec uid 0) as [E|Hne]; [now left|].
  assert (Hpos : 0 < uid < 2 ^ 32) by lia.
  destruct (ldb_msg_find_element msg SYSDB_MEMBEROF) as [[n [|v vs]]|].
  - right. exists uid, None. auto.
  - destruct (user_info_groups_loop sysdb (v :: vs) []) as [r names].
    destruct (r =? EOK); cbn [negb]; [|now left].
    right. exists uid, (Some names). auto.
  - right. exists uid, None. auto.
Qed.

(** X17. With a filter, a search that fails with anything but [ENOENT]
    ends the purge with that error before any rule is deleted. *)
Theorem X17_purge_matching_search_error
  {hdr : SudoHeader} {db : Sysdb} (sysdb : sysdb_ctx)
  (domain_name filter : string) (ret : errno_t) (msgs : list ldb_message) :
  sysdb_search_custom sysdb filter SUDORULE_SUBDIR
    [SYSDB_OBJECTCLASS; SYSDB_NAME;
     SYSDB_SUDO_CACHE_AT_OC; SYSDB_SUDO_CACHE_AT_CN] = (ret, msgs) ->
  ret <> EOK ->
  ret <> ENOENT ->
  sysdb_purge_sudorule_subtree sysdb domain_name (Some filter)
    = (ret, sysdb).
Proof.
  intros Hsearch Hok Hnoent. unfold sysdb_purge_sudorule_subtree.
  rewrite Hsearch.
  destruct (Z.eqb_spec ret EOK) as [E|_]; [contradiction|].
  destruct (Z.eqb_spec ret ENOENT) as [E|_]; [contradiction|].
  reflexivity.
Qed.

(** A filter the store cannot read (its parentheses are missing). *)
Lemma X17_purge_matching_search_error_witness :
  @sysdb_purge_sudorule_subtree sssd_header Sample.sysdb Sample.cache
    "example" (Some "sudoUser=ALL")
  = (EINVAL, Sample.cache).
Proof.
  apply (@X17_purge_matching_search_error sssd_header Sample.sysdb
           Sample.cache "example" "sudoUser=ALL" EINVAL []).
  - vm_compute. reflexivity.
  - vm_compute. discriminate.
  - vm_compute. discriminate.
Defined.

(** X18. When the object class cannot be appended, [sysdb_save_sudorule]
    returns that error at once: the name is not appended and the cache is
    not touched. *)
Theorem X18_save_first_append_fails
  {hdr : SudoHeader} {db : Sysdb} (sysdb : sysdb_ctx) (rule_name : string)
  (attrs attrs1 : sysdb_attrs) (ret1 : errno_t) :
  sysdb_attrs_add_string attrs SYSDB_OBJECTCLASS SYSDB_SUDO_CACHE_AT_OC
    = (ret1, attrs1) ->
  ret1 <> EOK ->
  sysdb_save_sudorule sysdb rule_name attrs = (ret1, attrs1, sysdb).
Proof.
  intros H1 Hne. unfold sysdb_save_sudorule. rewrite H1.
  destruct (Z.eqb_spec ret1 EOK) as [E|_]; [contradiction|reflexivity].
Qed.

(** A bag that is full already (three values, room for three). *)
Lemma X18_save_first_append_fails_witness :
  let attrs := [mk_element "cn" ["r9"]; mk_element "sudoUser" ["a"; "b"]] in
  @sysdb_save_sudorule sssd_header (MemSysdb.sysdb 3) Sample.cache "r9" attrs
  = (ENOMEM, attrs, Sample.cache).
Proof.
  intros attrs.
  apply (@X18_save_first_append_fails sssd_header (MemSysdb.sysdb 3)
           Sample.cache "r9" attrs attrs ENOMEM).
  - vm_compute. reflexivity.
  - vm_compute. discriminate.
Defined.

(** X19. The two functions on the refreshed flag address the same flag.
    Over a store in which a flag that was set reads back as set, and in
    which setting a flag changes neither the domain nor the DNs built,
    [sysdb_sudo_get_refreshed] after a successful
    [sysdb_sudo_set_refreshed] succeeds and gives the value that was
    set. *)
Theorem X19_refreshed_round_trip
  {hdr : SudoHeader} {rhdr : RefreshedHeader} {ctx dn : Type}
  {sb : SysdbBool ctx dn} (sysdb : ctx) (value old : bool) :
  (forall c d cn attr v c',
     sysdb_set_bool c d cn attr v = (EOK, c') ->
     forall o, sysdb_get_bool c' d attr o = (EOK, v)) ->
  (forall c d cn attr v r c',
     sysdb_set_bool c d cn attr v = (r, c') ->
     sysdb_domain_name c' = sysdb_domain_name c
     /\ forall fmt args,
          ldb_dn_new_fmt c' fmt args = ldb_dn_new_fmt c fmt args) ->
  fst (sysdb_sudo_set_refreshed sysdb value) = EOK ->
  sysdb_sudo_get_refreshed (snd (sysdb_sudo_set_refreshed sysdb value)) old
    = (EOK, value).
Proof.
  intros Hread Hstable. unfold sysdb_sudo_set_refreshed.
  destruct (ldb_dn_new_fmt sysdb SYSDB_TMPL_CUSTOM_SUBTREE
              [SUDORULE_SUBDIR; sysdb_domain_name sysdb]) as [d|] eqn:Hdn;
    [|discriminate].
  destruct (sysdb_set_bool sysdb d SUDORULE_SUBDIR SYSDB_SUDO_AT_REFRESHED
              value) as [ret sysdb'] eqn:Hset.
  cbn [fst snd]. intros ->.
  destruct (Hstable _ _ _ _ _ _ _ Hset) as [Hdom Hfmt].
  unfold sysdb_sudo_get_refreshed. rewrite Hfmt, Hdom, Hdn.
  exact (Hread _ _ _ _ _ _ Hset old).
Qed.

(** Setting the flag in a cache without flags and reading it back; before
    the first set, the flag cannot be read and the variable keeps its
    value. *)
Lemma X19_refreshed_round_trip_witness :
  @sysdb_sudo_get_refreshed sssd_header MemFlags.header _ _
    MemFlags.sysdb_bool
    (snd (@sysdb_sudo_set_refreshed sssd_header MemFlags.header _ _
            MemFlags.sysdb_bool MoreSample.flags true)) false
  = (EOK, true)
  /\ @sysdb_sudo_get_refreshed sssd_header MemFlags.header _ _
       MemFlags.sysdb_bool MoreSample.flags false
     = (ENOENT, false).
Proof.
  split; [|vm_compute; reflexivity].
  apply (@X19_refreshed_round_trip sssd_header MemFlags.header _ _
           MemFlags.sysdb_bool MoreSample.flags true false).
  - intros c d cn attr v c' Hset o. cbn in Hset |- *.
    unfold MemFlags.set_bool in Hset. injection Hset as <-.
    unfold MemFlags.get_bool. cbn.
    now rewrite !String.eqb_refl.
  - intros c d cn attr v r c' Hset. cbn in Hset |- *.
    unfold MemFlags.set_bool in Hset. injection Hset as _ <-.
    split; reflexivity.
  - vm_compute. reflexivity.
Defined.

(** X20. A rule that has no notBefore attribute is allowed at any time,
    with [EOK]; so is, in particular, a rule without any time attribute. *)
Theorem X20_check_time_without_notbefore
  {hdr : SudoHeader} {libc : Libc} (rule : sysdb_attrs) (now : time_t)
  (result : bool) :
  ldb_msg_find_element rule SYSDB_SUDO_CACHE_AT_NOTBEFORE = None ->
  sysdb_sudo_check_time rule now result = (EOK, true).
Proof. apply check_time_notbefore_absent. Qed.

(** A rule that has a name and nothing else. *)
Lemma X20_check_time_without_notbefore_witness :
  @sysdb_sudo_check_time sssd_header Sample.libc
    (Sample.rule "open" None None) Sample.jun2020 false
  = (EOK, true).
Proof.
  apply (@X20_check_time_without_notbefore sssd_header Sample.libc).
  vm_compute. reflexivity.
Defined.


